(** * google-docs-mcp: the credential lifecycle and the JSON-RPC dispatcher

    A shallow embedding of [server.py].  Handlers are functions in a small
    state-and-exception monad over the token file and the log of remote
    calls; the provider, the remote document service and the clock are
    fields of an environment record. *)

From Stdlib Require Import ZArith List String Ascii Bool Lia DecimalString.
Import ListNotations.
Local Open Scope string_scope.
Local Open Scope Z_scope.

(** ** Python values

    What [json.loads] produces.  A str is the sequence of its code points,
    each below 256.  A dict is an association list in insertion order whose
    lookup takes the first binding of a key.  A float carries the text [str]
    prints for it, which for the values that are not finite is "inf", "-inf"
    or "nan". *)

#[local] Set Warnings "-register-all".

Inductive json : Type :=
| JNull
| JBool (b : bool)
| JInt (n : Z)
| JFloat (text : string)
| JStr (s : string)
| JList (items : list json)
| JDict (fields : list (string * json)).

Module Py.

(** [str(n)] for an int. *)
Definition str_int (n : Z) : string := NilZero.string_of_int (Z.to_int n).

Fixpoint contains_char (c : ascii) (s : string) : bool :=
  match s with
  | EmptyString => false
  | String d rest => Ascii.eqb c d || contains_char c rest
  end.

Definition hex_digit (n : N) : ascii :=
  match n with
  | 0 => "0" | 1 => "1" | 2 => "2" | 3 => "3" | 4 => "4" | 5 => "5"
  | 6 => "6" | 7 => "7" | 8 => "8" | 9 => "9" | 10 => "a" | 11 => "b"
  | 12 => "c" | 13 => "d" | 14 => "e" | _ => "f"
  end%N%char.

(** [c.isprintable()] for a code point below 256: not a control character
    (below 32, or from 127 to 159), not the no-break space 160 and not the
    soft hyphen 173. *)
Definition printable (n : N) : bool :=
  negb ((n <? 32)%N || ((127 <=? n)%N && (n <=? 160)%N) || (n =? 173)%N).

(** One character of [repr] of a str, for the quote character [q]: the
    quote and the backslash are escaped, tab, newline and carriage return
    have their letters, other characters that are not printable are written
    in hex, the rest is copied. *)
Definition repr_char (q c : ascii) : string :=
  let n := N_of_ascii c in
  if Ascii.eqb c q || Ascii.eqb c "\"%char then String "\"%char (String c EmptyString)
  else if (n =? 9)%N then "\t"
  else if (n =? 10)%N then "\n"
  else if (n =? 13)%N then "\r"
  else if negb (printable n) then
    String "\"%char (String "x"%char
      (String (hex_digit (n / 16)) (String (hex_digit (n mod 16)) EmptyString)))
  else String c EmptyString.

Fixpoint repr_chars (q : ascii) (s : string) : string :=
  match s with
  | EmptyString => EmptyString
  | String c rest => repr_char q c ++ repr_chars q rest
  end.

Definition squote : ascii := "'"%char.
Definition dquote : ascii := ascii_of_N 34.

(** [repr(s)] for a str: single quotes, unless the text has a single quote
    and no double quote. *)
Definition repr_str (s : string) : string :=
  let q := if contains_char squote s && negb (contains_char dquote s)
           then dquote else squote in
  String q (repr_chars q s ++ String q EmptyString).

(** [repr(v)]. *)
Fixpoint repr (v : json) : string :=
  match v with
  | JNull => "None"
  | JBool true => "True"
  | JBool false => "False"
  | JInt n => str_int n
  | JFloat text => text
  | JStr s => repr_str s
  | JList items => "[" ++ String.concat ", " (map repr items) ++ "]"
  | JDict fields =>
      "{" ++ String.concat ", "
               (map (fun kv => repr_str (fst kv) ++ ": " ++ repr (snd kv)) fields)
          ++ "}"
  end.

(** [str(v)], which is what an f-string field prints. *)
Definition str (v : json) : string :=
  match v with
  | JStr s => s
  | _ => repr v
  end.

(** Truth value of [v], as [or] and [not] test it. *)
Definition truthy (v : json) : bool :=
  match v with
  | JNull => false
  | JBool b => b
  | JInt n => negb (n =? 0)
  | JFloat text => negb (String.eqb text "0.0" || String.eqb text "-0.0")
  | JStr s => negb (String.eqb s "")
  | JList items => match items with [] => false | _ => true end
  | JDict fields => match fields with [] => false | _ => true end
  end.

(** Whether the float printed as [text] is finite. *)
Definition float_is_finite (text : string) : bool :=
  negb (String.eqb text "inf" || String.eqb text "-inf" || String.eqb text "nan").

(** The first float of [v] that is not finite, in the order in which
    [json.dumps] writes [v]. *)
Fixpoint first_non_finite (v : json) : option string :=
  match v with
  | JFloat text => if float_is_finite text then None else Some text
  | JList items =>
      (fix scan (l : list json) : option string :=
         match l with
         | [] => None
         | x :: rest =>
             match first_non_finite x with
             | Some text => Some text
             | None => scan rest
             end
         end) items
  | JDict fields =>
      (fix scan (l : list (string * json)) : option string :=
         match l with
         | [] => None
         | kv :: rest =>
             match first_non_finite (snd kv) with
             | Some text => Some text
             | None => scan rest
             end
         end) fields
  | _ => None
  end.


(** [v == s] for a str literal [s]. *)
Definition eq_str (v : json) (s : string) : bool :=
  match v with
  | JStr t => String.eqb t s
  | _ => false
  end.

Definition type_name (v : json) : string :=
  match v with
  | JNull => "NoneType"
  | JBool _ => "bool"
  | JInt _ => "int"
  | JFloat _ => "float"
  | JStr _ => "str"
  | JList _ => "list"
  | JDict _ => "dict"
  end.

Fixpoint lookup {A : Type} (k : string) (kvs : list (string * A)) : option A :=
  match kvs with
  | [] => None
  | (k', v) :: rest => if String.eqb k k' then Some v else lookup k rest
  end.

End Py.

(** ** Exceptions

    The three classes the dispatcher tells apart: [KeyError], FastAPI's
    [HTTPException], and every other [Exception], kept with its class name
    and its text. *)

Inductive exn : Type :=
| KeyError (key : json)
| HTTPException (status_code : Z) (detail : string)
| Exception (cls : string) (text : string).

(** [str(e)]: a [KeyError] prints the repr of its key, an [HTTPException]
    its status and detail. *)
Definition exn_str (e : exn) : string :=
  match e with
  | KeyError key => Py.repr key
  | HTTPException status_code detail => Py.str_int status_code ++ ": " ++ detail
  | Exception _ text => text
  end.

Module PyOps.

(** [v.get(key, default)]: only a dict has [get]. *)
Definition get (v : json) (key : string) (default : json) : exn + json :=
  match v with
  | JDict fields =>
      match Py.lookup key fields with
      | Some x => inr x
      | None => inr default
      end
  | _ => inl (Exception "AttributeError"
                ("'" ++ Py.type_name v ++ "' object has no attribute 'get'"))
  end.

(** [v[key]] for a str key: a dict without the key raises [KeyError(key)],
    anything that is not a dict raises [TypeError]. *)
Definition getitem (v : json) (key : string) : exn + json :=
  match v with
  | JDict fields =>
      match Py.lookup key fields with
      | Some x => inr x
      | None => inl (KeyError (JStr key))
      end
  | JList _ => inl (Exception "TypeError" "list indices must be integers or slices, not str")
  | JStr _ => inl (Exception "TypeError" "string indices must be integers, not 'str'")
  | _ => inl (Exception "TypeError" ("'" ++ Py.type_name v ++ "' object is not subscriptable"))
  end.

End PyOps.

(** ** Credentials, the token file and the remote world *)

(** The fields of [google.oauth2.credentials.Credentials] the server reads:
    the access token, the refresh token, the expiry and the client's
    identity.  Times are counted in microseconds since the epoch. *)
Record Credentials : Type := mkCredentials {
  token : string;
  refresh_token : option string;
  expiry : option Z;
  client_id : string;
  client_secret : string
}.

(** A key of the JSON object in the token file: missing, bound to null, or
    bound to a string. *)
Inductive Field : Type :=
| Missing
| Null
| Text (s : string).

(** The JSON object in the token file, as far as the server's reader looks
    at it.  [info_expiry] is the time the [expiry] string denotes, and
    [None] when the object has no [expiry] or an empty one. *)
Record AuthorizedUserInfo : Type := mkInfo {
  info_token : string;
  info_refresh_token : Field;
  info_expiry : option Z;
  info_client_id : string;
  info_client_secret : string
}.

(** What [TOKEN_FILE] holds: an object as above, or text on which
    [json.load] or [Credentials.from_authorized_user_info] raises [e]
    whatever its refresh token is (text that is not JSON, an object without
    the client's identity). *)
Inductive TokenFile : Type :=
| Authorized (info : AuthorizedUserInfo)
| Unreadable (e : exn).

(** The calls made on the client libraries. *)
Inductive RemoteCall : Type :=
| RefreshGrant (creds : Credentials)
| FetchToken (code : string)
| DriveFilesList (creds : Credentials) (q : string) (pageSize : Z) (fields : string)
| DocumentsGet (creds : Credentials) (documentId : json)
| DocumentsBatchUpdate (creds : Credentials) (documentId : json) (body : json).

Definition is_batch_update (c : RemoteCall) : bool :=
  match c with
  | DocumentsBatchUpdate _ _ _ => true
  | _ => false
  end.

(** The state a handler runs in: the token file, absent or present, and the
    remote calls issued so far, oldest first. *)
Record State : Type := mkState {
  token_file : option TokenFile;
  calls : list RemoteCall
}.

(** Everything outside the process.  [REFRESH_THRESHOLD] is the library's
    early-expiry margin. *)
Record Env : Type := mkEnv {
  utcnow : Z;
  REFRESH_THRESHOLD : N;
  refresh_grant : Credentials -> exn + Credentials;
  client_secrets_file : exn + string;
  fetch_token : string -> string -> exn + Credentials;
  drive_files_list : Credentials -> string -> Z -> string -> exn + json;
  documents_get : Credentials -> json -> exn + json;
  documents_batchUpdate : Credentials -> json -> json -> exn + json
}.

(** ** The handler monad: state passing with exceptions *)

Definition M (A : Type) : Type := State -> (exn + A) * State.

Definition ret {A : Type} (a : A) : M A := fun s => (inr a, s).

Definition raise {A : Type} (e : exn) : M A := fun s => (inl e, s).

Definition bind {A B : Type} (m : M A) (k : A -> M B) : M B :=
  fun s =>
    match m s with
    | (inr a, s') => k a s'
    | (inl e, s') => (inl e, s')
    end.

(** [try: m except Exception as e: h e]. *)
Definition try_except {A : Type} (m : M A) (h : exn -> M A) : M A :=
  fun s =>
    match m s with
    | (inr a, s') => (inr a, s')
    | (inl e, s') => h e s'
    end.

(** A pure computation that may raise. *)
Definition lift {A : Type} (r : exn + A) : M A := fun s => (r, s).

(** A remote call: it is logged, then the world answers. *)
Definition remote {A : Type} (c : RemoteCall) (answer : exn + A) : M A :=
  fun s => (answer, mkState (token_file s) (calls s ++ [c])).

Declare Scope monad_scope.
Delimit Scope monad_scope with monad.
Notation "x <- m ;; k" := (bind m (fun x => k))
  (at level 61, m at next level, right associativity) : monad_scope.
Notation "m ;;; k" := (bind m (fun _ => k))
  (at level 61, right associativity) : monad_scope.
Local Open Scope monad_scope.

(** ** The token file *)

(** [creds.to_json()]: the fields of the credential, without those that are
    [None]. *)
Definition to_json (creds : Credentials) : AuthorizedUserInfo :=
  mkInfo (token creds)
    (match refresh_token creds with Some rt => Text rt | None => Missing end)
    (expiry creds) (client_id creds) (client_secret creds).

(** The [expiry] string has no room for a fraction of a second when it is
    read back: the reader cuts it off. *)
Definition whole_seconds (t : Z) : Z := t - t mod 1000000.

(** [Credentials.from_authorized_user_info(info, SCOPES)]: the
    [refresh_token] key must be there, if only with null; an object without
    [expiry] is given one that has just passed. *)
Definition from_authorized_user_info (env : Env) (info : AuthorizedUserInfo)
    : exn + Credentials :=
  let expiry :=
    match info_expiry info with
    | Some e => whole_seconds e
    | None => utcnow env - Z.of_N (REFRESH_THRESHOLD env)
    end in
  match info_refresh_token info with
  | Missing =>
      inl (Exception "ValueError"
             "Authorized user info was not in the expected format, missing fields refresh_token.")
  | Null =>
      inr (mkCredentials (info_token info) None (Some expiry)
             (info_client_id info) (info_client_secret info))
  | Text rt =>
      inr (mkCredentials (info_token info) (Some rt) (Some expiry)
             (info_client_id info) (info_client_secret info))
  end.

(** [json.load] of the file's text followed by the reader above. *)
Definition read_token_file (env : Env) (f : TokenFile) : exn + Credentials :=
  match f with
  | Authorized info => from_authorized_user_info env info
  | Unreadable e => inl e
  end.

Module TokenStore.

(** [os.path.exists(TOKEN_FILE)]. *)
Definition exists_ : M bool :=
  fun s => (inr (match token_file s with Some _ => true | None => false end), s).

(** The file is opened and read. *)
Definition read (env : Env) : M Credentials :=
  fun s =>
    match token_file s with
    | Some f => (read_token_file env f, s)
    | None => (inl (Exception "FileNotFoundError" "No such file or directory"), s)
    end.

(** [f.write(creds.to_json())] on the file opened for writing. *)
Definition write (creds : Credentials) : M unit :=
  fun s => (inr tt, mkState (Some (Authorized (to_json creds))) (calls s)).

(** [os.remove(TOKEN_FILE)]. *)
Definition remove : M unit :=
  fun s =>
    match token_file s with
    | Some _ => (inr tt, mkState None (calls s))
    | None => (inl (Exception "FileNotFoundError" "No such file or directory"), s)
    end.

End TokenStore.

(** ** Credential manager *)

(** [creds.expired]: no expiry never expires; otherwise the credential is
    expired once the clock reaches the expiry less the threshold. *)
Definition expired (env : Env) (creds : Credentials) : bool :=
  match expiry creds with
  | None => false
  | Some e => e - Z.of_N (REFRESH_THRESHOLD env) <=? utcnow env
  end.

(** The truth value of [creds.refresh_token]: present and not empty. *)
Definition has_refresh_token (creds : Credentials) : bool :=
  match refresh_token creds with
  | Some rt => negb (String.eqb rt "")
  | None => false
  end.

(** [creds.refresh(GoogleAuthRequest())]: one call to the authorization
    server, which answers with the refreshed credentials or raises. *)
Definition refresh (env : Env) (creds : Credentials) : M Credentials :=
  remote (RefreshGrant creds) (refresh_grant env creds).

Definition load_creds (env : Env) : M Credentials :=
  present <- TokenStore.exists_ ;;
  if negb present then
    raise (HTTPException 401 "User not authorized. Visit /authorize")
  else
    creds <- TokenStore.read env ;;
    if expired env creds && has_refresh_token creds then
      try_except
        (creds' <- refresh env creds ;;
         TokenStore.write creds' ;;;
         ret creds')
        (fun e =>
           try_except TokenStore.remove (fun _ => ret tt) ;;;
           raise (HTTPException 401 ("Failed to refresh credentials: " ++ exn_str e)))
    else
      ret creds.

(** ** Document API adapter *)

(** [build(api, version, credentials=creds)]: the client object for a
    service, which carries the credentials its calls are made with. *)
Record Service : Type := build {
  serviceName : string;
  version : string;
  credentials : Credentials
}.

Definition list_docs (env : Env) : M json :=
  creds <- load_creds env ;;
  let drive := build "drive" "v3" creds in
  let q := "mimeType='application/vnd.google-apps.document' and trashed=false" in
  files <- remote (DriveFilesList (credentials drive) q 50 "files(id,name)")
                  (drive_files_list env (credentials drive) q 50 "files(id,name)") ;;
  lift (PyOps.get files "files" (JList [])).

Definition get_doc (env : Env) (document_id : json) : M json :=
  creds <- load_creds env ;;
  let docs := build "docs" "v1" creds in
  doc <- remote (DocumentsGet (credentials docs) document_id)
                (documents_get env (credentials docs) document_id) ;;
  title <- lift (PyOps.get doc "title" JNull) ;;
  body <- lift (PyOps.get doc "body" JNull) ;;
  ret (JDict [("title", title); ("body", body)]).

(** [docs.documents().batchUpdate(documentId=..., body={"requests": requests}).execute()]
    and the result built from its reply. *)
Definition batch_update (env : Env) (docs : Service) (document_id : json)
    (requests : json) : M json :=
  let body := JDict [("requests", requests)] in
  resp <- remote (DocumentsBatchUpdate (credentials docs) document_id body)
                 (documents_batchUpdate env (credentials docs) document_id body) ;;
  replies <- lift (PyOps.get resp "replies" JNull) ;;
  ret (JDict [("status", JStr "ok"); ("updates", replies)]).

Definition insert_text (env : Env) (document_id text index : json) : M json :=
  creds <- load_creds env ;;
  let docs := build "docs" "v1" creds in
  let requests :=
    JList [JDict [("insertText",
                   JDict [("location", JDict [("index", index)]); ("text", text)])]] in
  batch_update env docs document_id requests.

(** [",".join(style.keys())]. *)
Definition join_keys (style : list (string * json)) : string :=
  String.concat "," (map fst style).

Definition text_style_requests (start_index end_index : json)
    (style : list (string * json)) : json :=
  JList [JDict [("updateTextStyle",
                 JDict [("range", JDict [("startIndex", start_index);
                                         ("endIndex", end_index)]);
                        ("textStyle", JDict style);
                        ("fields", JStr (join_keys style))])]].

Definition paragraph_style_requests (start_index end_index : json) : json :=
  JList [JDict [("updateParagraphStyle",
                 JDict [("range", JDict [("startIndex", start_index);
                                         ("endIndex", end_index)]);
                        ("paragraphStyle", JDict [("namedStyleType", JStr "HEADING_1")]);
                        ("fields", JStr "namedStyleType")])]].

Definition format_range (env : Env) (document_id start_index end_index format : json)
    : M json :=
  creds <- load_creds env ;;
  let docs := build "docs" "v1" creds in
  if Py.eq_str format "bold" then
    batch_update env docs document_id
      (text_style_requests start_index end_index [("bold", JBool true)])
  else if Py.eq_str format "italic" then
    batch_update env docs document_id
      (text_style_requests start_index end_index [("italic", JBool true)])
  else if Py.eq_str format "heading1" then
    batch_update env docs document_id
      (paragraph_style_requests start_index end_index)
  else
    raise (Exception "Exception" "unsupported format").

(** ** HTTP surface *)

Inductive Content : Type :=
| JSONContent (content : json)
| HTMLContent (html : string)
| PlainTextContent (text : string).

Record Response : Type := mkResponse {
  status : Z;
  content : Content
}.

(** [JSONResponse(content, status_code=...)] renders its content when it is
    built, with [allow_nan=False]: a float that is not finite makes the
    encoder raise [ValueError] with that float in the text. *)
Definition JSONResponse (content : json) (status_code : Z) : exn + Response :=
  match Py.first_non_finite content with
  | None => inr (mkResponse status_code (JSONContent content))
  | Some text =>
      inl (Exception "ValueError"
             ("Out of range float values are not JSON compliant: " ++ text))
  end.

Definition HTMLResponse (html : string) : Response :=
  mkResponse 200 (HTMLContent html).

(** A request as the handlers read it: the query parameters in the order of
    the query string, and what [await req.json()] gives, a value or the
    decoder's exception. *)
Record Request : Type := mkRequest {
  query_params : list (string * string);
  req_json : exn + json
}.

(** [request.query_params.get(key)]: of several values for one key, the
    last. *)
Definition query_get (key : string) (qs : list (string * string)) : option string :=
  Py.lookup key (rev qs).

(** The branch of [mcp_endpoint] chosen by [method]; subscripts of [params]
    are evaluated left to right before the operation is called. *)
Definition dispatch (env : Env) (method params : json) : M json :=
  if Py.eq_str method "list_docs" then
    list_docs env
  else if Py.eq_str method "get_doc" then
    document_id <- lift (PyOps.getitem params "documentId") ;;
    get_doc env document_id
  else if Py.eq_str method "insert_text" then
    document_id <- lift (PyOps.getitem params "documentId") ;;
    text <- lift (PyOps.getitem params "text") ;;
    index <- lift (PyOps.get params "index" (JInt 1)) ;;
    insert_text env document_id text index
  else if Py.eq_str method "format_range" then
    document_id <- lift (PyOps.getitem params "documentId") ;;
    start_index <- lift (PyOps.getitem params "start_index") ;;
    end_index <- lift (PyOps.getitem params "end_index") ;;
    format <- lift (PyOps.getitem params "format") ;;
    format_range env document_id start_index end_index format
  else
    raise (HTTPException 400 ("Unknown method " ++ Py.str method)).

Definition result_envelope (request_id result : json) : json :=
  JDict [("jsonrpc", JStr "2.0"); ("id", request_id); ("result", result)].

Definition error_envelope (request_id : json) (message : string) : json :=
  JDict [("jsonrpc", JStr "2.0"); ("id", request_id);
         ("error", JDict [("message", JStr message)])].

(** The three [except] clauses of [mcp_endpoint], in their order.  An
    exception raised while a clause builds its response is caught by no
    other clause. *)
Definition error_response (request_id : json) (e : exn) : exn + Response :=
  match e with
  | KeyError _ =>
      JSONResponse (error_envelope request_id ("missing param: " ++ exn_str e)) 400
  | HTTPException status_code detail =>
      JSONResponse (error_envelope request_id detail) status_code
  | Exception _ _ =>
      JSONResponse (error_envelope request_id (exn_str e)) 500
  end.

Definition mcp_endpoint (env : Env) (req : Request) : M Response :=
  body <- lift (req_json req) ;;
  method <- lift (PyOps.get body "method" JNull) ;;
  p <- lift (PyOps.get body "params" (JDict [])) ;;
  let params := if Py.truthy p then p else JDict [] in
  request_id <- lift (PyOps.get body "id" JNull) ;;
  try_except
    (result <- dispatch env method params ;;
     lift (JSONResponse (result_envelope request_id result) 200))
    (fun e => lift (error_response request_id e)).

(** [Flow.from_client_secrets_file(...)], [flow.fetch_token(code=code)] and
    [flow.credentials]. *)
Definition exchange_code (env : Env) (code : string) : M Credentials :=
  flow <- lift (client_secrets_file env) ;;
  remote (FetchToken code) (fetch_token env flow code).

Definition oauth2callback (env : Env) (request : Request) : M Response :=
  match query_get "code" (query_params request) with
  | None => raise (HTTPException 400 "No code in callback")
  | Some code =>
      if String.eqb code "" then raise (HTTPException 400 "No code in callback")
      else
        creds <- exchange_code env code ;;
        TokenStore.write creds ;;;
        ret (HTMLResponse "Authorized. You can close this tab. Server ready.")
  end.

(** What FastAPI sends for a handler's outcome: the handler's response; for
    a raised [HTTPException] its status with the detail as JSON; for any
    other exception status 500. *)
Definition http_response (outcome : exn + Response) : Response :=
  match outcome with
  | inr r => r
  | inl (HTTPException status_code detail) =>
      mkResponse status_code (JSONContent (JDict [("detail", JStr detail)]))
  | inl _ => mkResponse 500 (PlainTextContent "Internal Server Error")
  end.

(** ** Reading a response *)





(** The batch updates among the remote calls. *)
Definition batch_updates (s : State) : list RemoteCall :=
  filter is_batch_update (calls s).

(** ** The parts of an object body, as [mcp_endpoint] reads them *)

Definition body_method (fields : list (string * json)) : json :=
  match Py.lookup "method" fields with Some m => m | None => JNull end.

Definition body_params (fields : list (string * json)) : json :=
  let p := match Py.lookup "params" fields with Some p => p | None => JDict [] end in
  if Py.truthy p then p else JDict [].

Definition body_id (fields : list (string * json)) : json :=
  match Py.lookup "id" fields with Some i => i | None => JNull end.

(** A request as a JSON-RPC client builds it. *)
Definition rpc_request (method params id : json) : Request :=
  mkRequest [] (inr (JDict [("method", method); ("params", params); ("id", id)])).

Definition format_range_params (d a b fmt : json) : json :=
  JDict [("documentId", d); ("start_index", a); ("end_index", b); ("format", fmt)].

(** ** The dispatch table *)





(** ** Sample worlds *)

(** A record that expired at second 1000, one valid until second 9000, and
    the first one without its refresh token. *)
Definition sample_creds : Credentials :=
  mkCredentials "ya29.old" (Some "1//refresh") (Some 1000000000) "client" "secret".

Definition fresh_creds : Credentials :=
  mkCredentials "ya29.new" (Some "1//refresh") (Some 9000000000) "client" "secret".

Definition terminal_creds : Credentials :=
  mkCredentials "ya29.old" None (Some 1000000000) "client" "secret".

(** A token file written by hand: expired at second 1000, with
    [refresh_token] bound to null. *)
Definition null_token_info : AuthorizedUserInfo :=
  mkInfo "ya29.old" Null (Some 1000000000) "client" "secret".

(** A world at second 5000, with a threshold of 225 seconds, whose
    authorization server refuses every refresh and whose document service
    answers every call with an empty object. *)
Definition refusing_env : Env :=
  mkEnv 5000000000 225000000
    (fun _ => inl (Exception "RefreshError" "invalid_grant: Token has been expired or revoked."))
    (inr "client_secret.json")
    (fun _ _ => inr fresh_creds)
    (fun _ _ _ _ => inr (JDict []))
    (fun _ _ => inr (JDict []))
    (fun _ _ _ => inr (JDict [("replies", JList [JDict []])])).

(** The same world with an authorization server that grants a token valid
    until second 9000. *)
Definition granting_env : Env :=
  mkEnv 5000000000 225000000
    (fun _ => inr fresh_creds)
    (inr "client_secret.json")
    (fun _ _ => inr fresh_creds)
    (fun _ _ _ _ => inr (JDict []))
    (fun _ _ => inr (JDict []))
    (fun _ _ _ => inr (JDict [("replies", JList [JDict []])])).

(** A state whose token file holds [info], and one whose token file was
    written from [creds]. *)
Definition holding (info : AuthorizedUserInfo) : State :=
  mkState (Some (Authorized info)) [].

Definition stored (creds : Credentials) : State :=
  holding (to_json creds).

Definition unauthorized : State := mkState None [].

(** ** Kinds of remote call *)

Definition is_refresh (c : RemoteCall) : bool :=
  match c with
  | RefreshGrant _ => true
  | _ => false
  end.

(** The calls to the Drive and Docs services. *)
Definition is_service_call (c : RemoteCall) : bool :=
  match c with
  | DriveFilesList _ _ _ _ | DocumentsGet _ _ | DocumentsBatchUpdate _ _ _ => true
  | _ => false
  end.

(** ** [get_refresh_token.py]

    The script reads the token file itself: [file] is [None] when the path
    does not exist, and otherwise what [json.load] gives for its text, a
    value or the decoder's exception. *)

Module GetRefreshToken.

Definition PATH : string := "tokens/user_token.json".

(** How the run ends: it falls off the end of the script, it calls
    [exit(code)], or an exception is not caught. *)
Inductive Ending : Type :=
| Finished
| SystemExit (code : Z)
| Uncaught (e : exn).

Record Run : Type := mkRun {
  stdout : list string;
  ending : Ending
}.

(** The exit status the interpreter reports. *)
Definition exit_status (r : Run) : Z :=
  match ending r with
  | Finished => 0
  | SystemExit code => code
  | Uncaught _ => 1
  end.

Definition main (file : option (exn + json)) : Run :=
  match file with
  | None => mkRun ["Token file not found: " ++ PATH] (SystemExit 1)
  | Some (inl e) => mkRun [] (Uncaught e)
  | Some (inr data) =>
      match PyOps.get data "refresh_token" JNull with
      | inl e => mkRun [] (Uncaught e)
      | inr refresh =>
          if Py.truthy refresh then
            mkRun ["REFRESH TOKEN:"; Py.str refresh] Finished
          else
            mkRun ["No refresh_token found in user_token.json"] Finished
      end
  end.

End GetRefreshToken.

(** ** More sample worlds *)

(** A world whose authorization server grants tokens and whose document
    service is down. *)
Definition offline_env : Env :=
  mkEnv 5000000000 225000000
    (fun _ => inr fresh_creds)
    (inr "client_secret.json")
    (fun _ _ => inl (Exception "InvalidGrantError" "(invalid_grant) Bad Request"))
    (fun _ _ _ _ => inl (Exception "HttpError" "503 Service Unavailable"))
    (fun _ _ => inl (Exception "HttpError" "503 Service Unavailable"))
    (fun _ _ _ => inl (Exception "HttpError" "503 Service Unavailable")).

(** A record without an expiry. *)
Definition eternal_creds : Credentials :=
  mkCredentials "ya29.eternal" (Some "1//refresh") None "client" "secret".

(** ** What a refresh leaves in a credential *)


(** [creds] with the expiry [e]. *)
Definition with_expiry (creds : Credentials) (e : Z) : Credentials :=
  mkCredentials (token creds) (refresh_token creds) (Some e)
    (client_id creds) (client_secret creds).

Definition corrupt : State :=
  mkState (Some (Unreadable (Exception "JSONDecodeError" "Expecting value: line 1 column 1 (char 0)"))) [].

(** ** The shapes of the state after an operation *)

(** [s'] is the state [load_creds] leaves when run from [s]. *)
Definition only_loads (env : Env) (s s' : State) : Prop :=
  s' = snd (load_creds env s).

(** From [s], [load_creds] returned a credential, and [s'] is the state it
    left with the one call [call] added to the log. *)
Definition loads_then_calls (env : Env) (s : State) (call : RemoteCall) (s' : State)
    : Prop :=
  exists creds,
    fst (load_creds env s) = inr creds /\
    s' = mkState (token_file (snd (load_creds env s)))
           (calls (snd (load_creds env s)) ++ [call]).

(** ** The request bodies of the adapter *)





(** * Properties *)

Ltac run_monad :=
  unfold bind, try_except, ret, raise, lift, remote,
    TokenStore.exists_, TokenStore.read, TokenStore.write, TokenStore.remove;
  cbn [fst snd token_file calls negb].

Section LoadCreds.

Variable env : Env.

(** The five paths through [load_creds]. *)

Lemma load_creds_absent (s : State) :
  token_file s = None ->
  load_creds env s =
    (inl (HTTPException 401 "User not authorized. Visit /authorize"), s).
Proof.
  intros Hnone. unfold load_creds. run_monad.
  rewrite Hnone. reflexivity.
Qed.

Lemma load_creds_read_failed (s : State) (f : TokenFile) (e : exn) :
  token_file s = Some f ->
  read_token_file env f = inl e ->
  load_creds env s = (inl e, s).
Proof.
  intros Hfile Hread. unfold load_creds. run_monad.
  rewrite Hfile. cbn. rewrite Hfile, Hread. reflexivity.
Qed.

Lemma load_creds_kept (s : State) (f : TokenFile) (creds : Credentials) :
  token_file s = Some f ->
  read_token_file env f = inr creds ->
  expired env creds && has_refresh_token creds = false ->
  load_creds env s = (inr creds, s).
Proof.
  intros Hfile Hread Hcond. unfold load_creds. run_monad.
  rewrite Hfile. cbn. rewrite Hfile, Hread, Hcond. reflexivity.
Qed.

Lemma load_creds_refreshed (s : State) (f : TokenFile) (creds creds' : Credentials) :
  token_file s = Some f ->
  read_token_file env f = inr creds ->
  expired env creds && has_refresh_token creds = true ->
  refresh_grant env creds = inr creds' ->
  load_creds env s =
    (inr creds',
     mkState (Some (Authorized (to_json creds'))) (calls s ++ [RefreshGrant creds])).
Proof.
  intros Hfile Hread Hcond Hgrant. unfold load_creds, refresh. run_monad.
  rewrite Hfile. cbn. rewrite Hfile, Hread, Hcond, Hgrant. reflexivity.
Qed.

Lemma load_creds_refresh_failed (s : State) (f : TokenFile) (creds : Credentials)
    (e : exn) :
  token_file s = Some f ->
  read_token_file env f = inr creds ->
  expired env creds && has_refresh_token creds = true ->
  refresh_grant env creds = inl e ->
  load_creds env s =
    (inl (HTTPException 401 ("Failed to refresh credentials: " ++ exn_str e)),
     mkState None (calls s ++ [RefreshGrant creds])).
Proof.
  intros Hfile Hread Hcond Hgrant. unfold load_creds, refresh. run_monad.
  rewrite Hfile. cbn -[String.append]. rewrite Hfile, Hread, Hcond, Hgrant.
  cbn -[String.append]. rewrite Hfile. reflexivity.
Qed.

(** The outcome of [load_creds], by what the token file holds. *)
Lemma load_creds_cases (s : State) :
  (token_file s = None /\
   load_creds env s =
     (inl (HTTPException 401 "User not authorized. Visit /authorize"), s)) \/
  (exists f e, token_file s = Some f /\ read_token_file env f = inl e /\
     load_creds env s = (inl e, s)) \/
  (exists f creds, token_file s = Some f /\ read_token_file env f = inr creds /\
     expired env creds && has_refresh_token creds = false /\
     load_creds env s = (inr creds, s)) \/
  (exists f creds creds', token_file s = Some f /\
     read_token_file env f = inr creds /\
     expired env creds && has_refresh_token creds = true /\
     load_creds env s =
       (inr creds',
        mkState (Some (Authorized (to_json creds'))) (calls s ++ [RefreshGrant creds]))) \/
  (exists f creds e, token_file s = Some f /\
     read_token_file env f = inr creds /\
     expired env creds && has_refresh_token creds = true /\
     load_creds env s =
       (inl (HTTPException 401 ("Failed to refresh credentials: " ++ exn_str e)),
        mkState None (calls s ++ [RefreshGrant creds]))).
Proof.
  destruct (token_file s) as [f | ] eqn:Hfile.
  - destruct (read_token_file env f) as [e | creds] eqn:Hread.
    + right. left. exists f, e. repeat split; auto.
      apply (load_creds_read_failed s f e); auto.
    + destruct (expired env creds && has_refresh_token creds) eqn:Hcond.
      * destruct (refresh_grant env creds) as [e | creds'] eqn:Hgrant.
        -- do 4 right. exists f, creds, e. repeat split; auto.
           apply (load_creds_refresh_failed s f creds e); auto.
        -- do 3 right. left. exists f, creds, creds'. repeat split; auto.
           apply (load_creds_refreshed s f creds creds'); auto.
      * do 2 right. left. exists f, creds. repeat split; auto.
        apply (load_creds_kept s f creds); auto.
  - left. split; auto. apply load_creds_absent; auto.
Qed.

(** Whatever the outcome, [load_creds] either leaves the call log alone or
    adds one refresh call to it. *)
Lemma load_creds_calls (s : State) :
  calls (snd (load_creds env s)) = calls s \/
  exists creds, calls (snd (load_creds env s)) = (calls s ++ [RefreshGrant creds])%list.
Proof.
  destruct (load_creds_cases s)
    as [[_ H] | [(f & e & _ & _ & H) | [(f & c & _ & _ & _ & H) |
        [(f & c & c' & _ & _ & _ & H) | (f & c & e & _ & _ & _ & H)]]]];
    rewrite H; cbn [snd calls]; eauto.
Qed.

Lemma load_creds_batch_updates (s : State) :
  batch_updates (snd (load_creds env s)) = batch_updates s.
Proof.
  unfold batch_updates.
  destruct (load_creds_calls s) as [-> | [creds ->]]; [reflexivity | ].
  rewrite filter_app. cbn. apply app_nil_r.
Qed.

End LoadCreds.


Lemma has_refresh_token_some (creds : Credentials) (rt : string) :
  refresh_token creds = Some rt -> rt <> "" -> has_refresh_token creds = true.
Proof.
  intros Hrt Hne. unfold has_refresh_token. rewrite Hrt.
  destruct (String.eqb_spec rt ""); [contradiction | reflexivity].
Qed.


Lemma whole_seconds_idempotent (t : Z) :
  whole_seconds (whole_seconds t) = whole_seconds t.
Proof.
  unfold whole_seconds.
  assert (H : (t - t mod 1000000) mod 1000000 = 0).
  { rewrite Zminus_mod, Z.mod_mod, Z.sub_diag by lia. reflexivity. }
  rewrite H. lia.
Qed.

(** What the reader makes of a file that [to_json] wrote. *)
Lemma read_back (env : Env) (creds : Credentials) (rt : string) (e : Z) :
  refresh_token creds = Some rt ->
  expiry creds = Some e ->
  from_authorized_user_info env (to_json creds) =
    inr (with_expiry creds (whole_seconds e)).
Proof.
  intros Hrt He. unfold from_authorized_user_info, to_json, with_expiry.
  cbn. rewrite Hrt, He. reflexivity.
Qed.

Lemma read_back_without_refresh_token (env : Env) (creds : Credentials) :
  refresh_token creds = None ->
  from_authorized_user_info env (to_json creds) =
    inl (Exception "ValueError"
           "Authorized user info was not in the expected format, missing fields refresh_token.").
Proof.
  intros Hrt. unfold from_authorized_user_info, to_json. cbn. rewrite Hrt. reflexivity.
Qed.

(** The reader keeps the refresh token of an object it accepts, and gives
    it the object's expiry in whole seconds. *)
Lemma reader_fields (env : Env) (info : AuthorizedUserInfo) (creds : Credentials) :
  from_authorized_user_info env info = inr creds ->
  refresh_token creds =
    match info_refresh_token info with Text rt => Some rt | _ => None end /\
  expiry creds =
    Some (match info_expiry info with
          | Some e => whole_seconds e
          | None => utcnow env - Z.of_N (REFRESH_THRESHOLD env)
          end).
Proof.
  unfold from_authorized_user_info.
  destruct (info_refresh_token info); intros H; try discriminate;
    injection H as <-; split; reflexivity.
Qed.

(** C1: when [load_creds] attempts a refresh and the refresh fails with [e],
    the call fails with 401 and a message that carries [str(e)], the token
    file is gone afterwards, and the next call, in any world, fails with 401
    through the no-file branch. *)
Theorem load_creds_refresh_failure_deletes_record
    (env : Env) (s : State) (info : AuthorizedUserInfo) (creds : Credentials)
    (e : exn) :
  token_file s = Some (Authorized info) ->
  from_authorized_user_info env info = inr creds ->
  expired env creds = true ->
  has_refresh_token creds = true ->
  refresh_grant env creds = inl e ->
  exists s',
    load_creds env s =
      (inl (HTTPException 401 ("Failed to refresh credentials: " ++ exn_str e)), s') /\
    token_file s' = None /\
    forall env', load_creds env' s' =
      (inl (HTTPException 401 "User not authorized. Visit /authorize"), s').
Proof.
  intros Hfile Hread Hexp Hrt Hgrant.
  eexists. split; [ | split].
  - apply (load_creds_refresh_failed env s (Authorized info) creds e); auto.
    rewrite Hexp, Hrt. reflexivity.
  - reflexivity.
  - intros env'. apply load_creds_absent. reflexivity.
Qed.

Lemma load_creds_refresh_failure_deletes_record_witness :
  exists s',
    load_creds refusing_env (stored sample_creds) =
      (inl (HTTPException 401
         "Failed to refresh credentials: invalid_grant: Token has been expired or revoked."),
       s') /\
    token_file s' = None /\
    forall env', load_creds env' s' =
      (inl (HTTPException 401 "User not authorized. Visit /authorize"), s').
Proof.
  apply (load_creds_refresh_failure_deletes_record refusing_env (stored sample_creds)
           (to_json sample_creds) sample_creds
           (Exception "RefreshError" "invalid_grant: Token has been expired or revoked."));
    reflexivity.
Defined.



(** C3 as stated fails: an expired record whose refresh token is null is
    returned, and stays in the token file. *)
Lemma load_creds_returns_expired_terminal_record :
  ~ (forall (env : Env) (s : State) (info : AuthorizedUserInfo) (creds : Credentials),
       token_file s = Some (Authorized info) ->
       from_authorized_user_info env info = inr creds ->
       expired env creds = true ->
       refresh_token creds = None ->
       exists e s', load_creds env s = (inl e, s') /\ token_file s' = None).
Proof.
  intros Hclaim.
  destruct (Hclaim refusing_env (holding null_token_info) null_token_info terminal_creds)
    as (e & s' & Hrun & _); try reflexivity.
  vm_compute in Hrun. discriminate.
Qed.

(** C3, amended: a stored record is never removed for want of a refresh
    token.  When the file binds [refresh_token] to null or to the empty
    string, the record is never refreshed: once expired, [load_creds]
    returns it as loaded, leaves the token file as it is and issues no
    remote call.  When the file has no [refresh_token] key at all the
    reader refuses it: [load_creds] raises its [ValueError], not a 401, and
    again leaves the file in place. *)
Theorem load_creds_keeps_expired_terminal_record
    (env : Env) (s : State) (info : AuthorizedUserInfo) :
  token_file s = Some (Authorized info) ->
  (forall creds,
     from_authorized_user_info env info = inr creds ->
     expired env creds = true ->
     has_refresh_token creds = false ->
     load_creds env s = (inr creds, s)) /\
  (info_refresh_token info = Missing ->
     load_creds env s =
       (inl (Exception "ValueError"
               "Authorized user info was not in the expected format, missing fields refresh_token."),
        s)).
Proof.
  intros Hfile. split.
  - intros creds Hread Hexp Hrt.
    apply (load_creds_kept env s (Authorized info) creds); auto.
    rewrite Hexp, Hrt. reflexivity.
  - intros Hmissing.
    apply (load_creds_read_failed env s (Authorized info)); [exact Hfile | ].
    cbn. unfold from_authorized_user_info. rewrite Hmissing. reflexivity.
Qed.

Lemma load_creds_keeps_expired_terminal_record_witness :
  expired refusing_env terminal_creds = true /\
  load_creds refusing_env (holding null_token_info) =
    (inr terminal_creds, holding null_token_info) /\
  load_creds refusing_env (stored terminal_creds) =
    (inl (Exception "ValueError"
            "Authorized user info was not in the expected format, missing fields refresh_token."),
     stored terminal_creds).
Proof.
  split; [reflexivity | split].
  - apply (proj1 (load_creds_keeps_expired_terminal_record refusing_env
                    (holding null_token_info) null_token_info eq_refl));
      reflexivity.
  - apply (proj2 (load_creds_keeps_expired_terminal_record refusing_env
                    (stored terminal_creds) (to_json terminal_creds) eq_refl)).
    reflexivity.
Defined.

(** ** [format_range] *)


Lemma eq_str_true (v : json) (lit : string) :
  Py.eq_str v lit = true -> v = JStr lit.
Proof.
  destruct v; cbn; try discriminate.
  intros Heq. apply String.eqb_eq in Heq. subst. reflexivity.
Qed.

(** A batch update adds exactly its own call to the log and leaves the
    token file alone, whether or not the service accepts it. *)
Lemma batch_update_state (env : Env) (docs : Service) (document_id requests : json)
    (s : State) :
  snd (batch_update env docs document_id requests s) =
    mkState (token_file s)
      (calls s ++ [DocumentsBatchUpdate (credentials docs) document_id
                     (JDict [("requests", requests)])]).
Proof.
  unfold batch_update. run_monad.
  destruct (documents_batchUpdate env _ _ _) as [e | resp]; [reflexivity | ].
  destruct (PyOps.get resp "replies" JNull); reflexivity.
Qed.


Lemma format_range_creds_ok (env : Env) (d a b fmt : json) (s s1 : State)
    (creds : Credentials) :
  load_creds env s = (inr creds, s1) ->
  format_range env d a b fmt s =
    (if Py.eq_str fmt "bold" then
       batch_update env (build "docs" "v1" creds) d
         (text_style_requests a b [("bold", JBool true)])
     else if Py.eq_str fmt "italic" then
       batch_update env (build "docs" "v1" creds) d
         (text_style_requests a b [("italic", JBool true)])
     else if Py.eq_str fmt "heading1" then
       batch_update env (build "docs" "v1" creds) d (paragraph_style_requests a b)
     else raise (Exception "Exception" "unsupported format")) s1.
Proof.
  intros Hload. unfold format_range, bind. rewrite Hload. reflexivity.
Qed.


(** ** Building a response *)








(** ** The dispatcher on an object body *)

Lemma mcp_endpoint_object (env : Env) (q : list (string * string))
    (fields : list (string * json)) (s : State) :
  mcp_endpoint env (mkRequest q (inr (JDict fields))) s =
    match dispatch env (body_method fields) (body_params fields) s with
    | (inr result, s') =>
        match JSONResponse (result_envelope (body_id fields) result) 200 with
        | inr r => (inr r, s')
        | inl e => (error_response (body_id fields) e, s')
        end
    | (inl e, s') => (error_response (body_id fields) e, s')
    end.
Proof.
  unfold mcp_endpoint, body_method, body_params, body_id. run_monad.
  cbn [req_json PyOps.get].
  destruct (Py.lookup "method" fields), (Py.lookup "params" fields),
    (Py.lookup "id" fields); cbn [fst snd];
    match goal with
    | |- context [dispatch ?e ?m ?p ?st] => destruct (dispatch e m p st) as [[ex | res] st']
    end; try reflexivity;
    match goal with
    | |- context [JSONResponse ?c ?n] => destruct (JSONResponse c n)
    end; reflexivity.
Qed.




Lemma body_of_rpc_request (method params id : json) :
  body_method [("method", method); ("params", params); ("id", id)] = method /\
  body_id [("method", method); ("params", params); ("id", id)] = id /\
  body_params [("method", method); ("params", params); ("id", id)] =
    (if Py.truthy params then params else JDict []).
Proof. repeat split. Qed.

Lemma dispatch_format_range (env : Env) (d a b fmt : json) (s : State) :
  dispatch env (JStr "format_range") (format_range_params d a b fmt) s =
    format_range env d a b fmt s.
Proof. reflexivity. Qed.

Lemma batch_updates_snoc (s : State) (tf : option TokenFile) (c : RemoteCall) :
  is_batch_update c = true ->
  batch_updates (mkState tf (calls s ++ [c])) = (batch_updates s ++ [c])%list.
Proof.
  intros Hc. unfold batch_updates. cbn [calls]. rewrite filter_app. cbn.
  rewrite Hc. reflexivity.
Qed.

Lemma load_creds_ok_batch_updates (env : Env) (s s1 : State) (creds : Credentials) :
  load_creds env s = (inr creds, s1) -> batch_updates s1 = batch_updates s.
Proof.
  intros Hload. pose proof (load_creds_batch_updates env s) as Hsame.
  rewrite Hload in Hsame. exact Hsame.
Qed.




(** C8 as stated fails: with no credential stored a [format_range] call for
    bold issues no batch update at all. *)
Lemma format_range_bold_without_credential_issues_nothing :
  ~ (forall (env : Env) (s : State) (d a b : json),
       List.length (batch_updates (snd (format_range env d a b (JStr "bold") s))) =
       S (List.length (batch_updates s))).
Proof.
  intros Hclaim.
  specialize (Hclaim refusing_env unauthorized (JStr "doc") (JInt 1) (JInt 5)).
  vm_compute in Hclaim. discriminate.
Qed.

(** C8, amended: once [format_range] has obtained its credential, a bold or
    italic call issues exactly one batch update, an [updateTextStyle] over
    the range from [start_index] to [end_index] whose text style sets that
    one field to true and whose field mask names that field only; a
    heading1 call issues exactly one batch update, an
    [updateParagraphStyle] over the range that sets [namedStyleType] to
    [HEADING_1]. *)
Theorem format_range_issues_one_batch_update
    (env : Env) (s s1 : State) (creds : Credentials) (d a b : json) :
  load_creds env s = (inr creds, s1) ->
  let text_style (name : string) :=
    DocumentsBatchUpdate creds d
      (JDict [("requests",
         JList [JDict [("updateTextStyle",
           JDict [("range", JDict [("startIndex", a); ("endIndex", b)]);
                  ("textStyle", JDict [(name, JBool true)]);
                  ("fields", JStr name)])]])]) in
  let heading :=
    DocumentsBatchUpdate creds d
      (JDict [("requests",
         JList [JDict [("updateParagraphStyle",
           JDict [("range", JDict [("startIndex", a); ("endIndex", b)]);
                  ("paragraphStyle", JDict [("namedStyleType", JStr "HEADING_1")]);
                  ("fields", JStr "namedStyleType")])]])]) in
  let issues (fmt : string) (c : RemoteCall) :=
    let s' := snd (format_range env d a b (JStr fmt) s) in
    calls s' = (calls s1 ++ [c])%list /\
    batch_updates s' = (batch_updates s ++ [c])%list /\
    token_file s' = token_file s1 in
  issues "bold" (text_style "bold") /\
  issues "italic" (text_style "italic") /\
  issues "heading1" heading.
Proof.
  intros Hload text_style heading issues.
  pose proof (load_creds_ok_batch_updates env s s1 creds Hload) as Hsame.
  unfold issues.
  rewrite !(format_range_creds_ok env d a b _ s s1 creds Hload).
  cbn [Py.eq_str String.eqb Ascii.eqb Bool.eqb].
  rewrite !batch_update_state. cbn [calls token_file credentials].
  rewrite !batch_updates_snoc, Hsame by reflexivity.
  repeat split.
Qed.

Lemma format_range_issues_one_batch_update_witness :
  batch_updates
    (snd (format_range granting_env (JStr "doc") (JInt 1) (JInt 5) (JStr "italic")
            (stored sample_creds))) =
    [DocumentsBatchUpdate fresh_creds (JStr "doc")
       (JDict [("requests",
          JList [JDict [("updateTextStyle",
            JDict [("range", JDict [("startIndex", JInt 1); ("endIndex", JInt 5)]);
                   ("textStyle", JDict [("italic", JBool true)]);
                   ("fields", JStr "italic")])]])])].
Proof.
  assert (Hload : load_creds granting_env (stored sample_creds) =
            (inr fresh_creds,
             mkState (Some (Authorized (to_json fresh_creds)))
               [RefreshGrant sample_creds]))
    by reflexivity.
  exact (proj1 (proj2 (proj1 (proj2
    (format_range_issues_one_batch_update granting_env (stored sample_creds) _
       fresh_creds (JStr "doc") (JInt 1) (JInt 5) Hload))))).
Defined.



(** ** The dispatcher *)














(** ** The OAuth callback *)

Lemma lookup_absent {A : Type} (k : string) (kvs : list (string * A)) :
  (forall v, ~ In (k, v) kvs) -> Py.lookup k kvs = None.
Proof.
  induction kvs as [ | [k' v'] kvs IH]; intros Habsent; [reflexivity | ].
  cbn. destruct (String.eqb_spec k k') as [-> | Hne].
  - exfalso. apply (Habsent v'). left. reflexivity.
  - apply IH. intros v Hin. apply (Habsent v). right. exact Hin.
Qed.

(** C9: a callback whose query string has no [code] parameter raises
    [HTTPException(400)], which is sent as HTTP 400; the token file is not
    written and no remote call is made: the state is unchanged. *)
Theorem oauth2callback_without_code (env : Env) (request : Request) (s : State) :
  (forall v, ~ In ("code", v) (query_params request)) ->
  oauth2callback env request s = (inl (HTTPException 400 "No code in callback"), s) /\
  status (http_response (fst (oauth2callback env request s))) = 400 /\
  token_file (snd (oauth2callback env request s)) = token_file s /\
  calls (snd (oauth2callback env request s)) = calls s.
Proof.
  intros Habsent.
  assert (Hrun : oauth2callback env request s =
                   (inl (HTTPException 400 "No code in callback"), s)).
  { unfold oauth2callback, query_get.
    rewrite lookup_absent; [reflexivity | ].
    intros v Hin. apply (Habsent v). apply in_rev. exact Hin. }
  rewrite Hrun. repeat split.
Qed.

Lemma oauth2callback_without_code_witness :
  oauth2callback granting_env (mkRequest [("state", "abc")] (inl (Exception "JSONDecodeError" "Expecting value")))
    (stored sample_creds) =
    (inl (HTTPException 400 "No code in callback"), stored sample_creds).
Proof.
  apply (oauth2callback_without_code granting_env
           (mkRequest [("state", "abc")] (inl (Exception "JSONDecodeError" "Expecting value")))
           (stored sample_creds)).
  intros v [Heq | []]. discriminate.
Defined.

(** ** End to end *)

(** An authorized [insert_text] request without an index inserts at index
    1 with one batch update and is answered with the replies. *)
Example insert_text_end_to_end :
  mcp_endpoint granting_env
    (rpc_request (JStr "insert_text")
       (JDict [("documentId", JStr "X"); ("text", JStr "hi")]) (JStr "1"))
    (stored fresh_creds) =
    (inr (mkResponse 200
            (JSONContent
               (JDict [("jsonrpc", JStr "2.0"); ("id", JStr "1");
                       ("result", JDict [("status", JStr "ok");
                                         ("updates", JList [JDict []])])]))),
     mkState (Some (Authorized (to_json fresh_creds)))
       [DocumentsBatchUpdate fresh_creds (JStr "X")
          (JDict [("requests",
             JList [JDict [("insertText",
               JDict [("location", JDict [("index", JInt 1)]);
                      ("text", JStr "hi")])]])])]).
Proof. reflexivity. Qed.

(** * Further properties of the credential manager *)

Lemma reader_accepts (env : Env) (info : AuthorizedUserInfo) :
  info_refresh_token info <> Missing ->
  exists creds, from_authorized_user_info env info = inr creds.
Proof.
  intros Hkey. unfold from_authorized_user_info.
  destruct (info_refresh_token info); [contradiction | eauto | eauto].
Qed.

(** The clock only matters to the reader when the object has no expiry. *)
Lemma reader_ignores_clock (env env' : Env) (info : AuthorizedUserInfo) (e : Z) :
  info_expiry info = Some e ->
  from_authorized_user_info env' info = from_authorized_user_info env info.
Proof.
  intros He. unfold from_authorized_user_info. rewrite He. reflexivity.
Qed.

Lemma with_expiry_same (creds : Credentials) (e : Z) :
  expiry creds = Some e -> with_expiry creds e = creds.
Proof.
  destruct creds as [t r x ci cs]. cbn. intros ->. reflexivity.
Qed.

(** X1: a stored record whose expiry, in whole seconds, lies more than the
    threshold ahead of the clock is returned as the reader loads it: no
    refresh call is made and the token file is not rewritten. *)
Theorem load_creds_fresh_record_untouched
    (env : Env) (s : State) (info : AuthorizedUserInfo) (e : Z) :
  token_file s = Some (Authorized info) ->
  info_refresh_token info <> Missing ->
  info_expiry info = Some e ->
  utcnow env + Z.of_N (REFRESH_THRESHOLD env) < whole_seconds e ->
  exists creds,
    from_authorized_user_info env info = inr creds /\
    expiry creds = Some (whole_seconds e) /\
    load_creds env s = (inr creds, s).
Proof.
  intros Hfile Hkey He Hahead.
  destruct (reader_accepts env info Hkey) as (creds & Hread).
  destruct (reader_fields env info creds Hread) as [_ Hexp]. rewrite He in Hexp.
  exists creds. split; [exact Hread | split; [exact Hexp | ]].
  apply (load_creds_kept env s (Authorized info) creds Hfile Hread).
  apply andb_false_iff. left. unfold expired. rewrite Hexp.
  apply Z.leb_gt. lia.
Qed.

Lemma load_creds_fresh_record_untouched_witness :
  exists creds,
    from_authorized_user_info refusing_env (to_json fresh_creds) = inr creds /\
    expiry creds = Some (whole_seconds 9000000000) /\
    load_creds refusing_env (stored fresh_creds) = (inr creds, stored fresh_creds).
Proof.
  apply (load_creds_fresh_record_untouched refusing_env (stored fresh_creds)
           (to_json fresh_creds) 9000000000); try reflexivity.
  discriminate.
Defined.

(** X2: whenever [load_creds] returns a credential, the token file then
    holds that credential: either the file is the one the credential was
    read from, untouched, or it is what [to_json] writes for the
    credential. *)
Theorem load_creds_returns_what_is_stored
    (env : Env) (s s' : State) (creds : Credentials) :
  load_creds env s = (inr creds, s') ->
  (s' = s /\
   exists info, token_file s = Some (Authorized info) /\
                from_authorized_user_info env info = inr creds) \/
  token_file s' = Some (Authorized (to_json creds)).
Proof.
  intros Hrun.
  destruct (load_creds_cases env s)
    as [[_ H] | [(f & e & _ & _ & H) | [(f & c & Hfile & Hread & _ & H) |
        [(f & c & c' & _ & _ & _ & H) | (f & c & e & _ & _ & _ & H)]]]];
    rewrite H in Hrun; try discriminate; injection Hrun as <- <-.
  - left. split; [reflexivity | ].
    destruct f as [info | e]; [ | discriminate Hread].
    exists info. split; assumption.
  - right. reflexivity.
Qed.

Lemma load_creds_returns_what_is_stored_witness :
  (mkState (Some (Authorized (to_json fresh_creds))) [RefreshGrant sample_creds] =
     stored sample_creds /\
   exists info, token_file (stored sample_creds) = Some (Authorized info) /\
                from_authorized_user_info granting_env info = inr fresh_creds) \/
  token_file (mkState (Some (Authorized (to_json fresh_creds)))
                [RefreshGrant sample_creds]) =
    Some (Authorized (to_json fresh_creds)).
Proof.
  apply (load_creds_returns_what_is_stored granting_env (stored sample_creds)).
  reflexivity.
Defined.

(** X3: when the token file is absent or the reader accepts it, every
    failure of [load_creds] is a 401 and leaves no token file behind. *)
Theorem load_creds_failure_is_unauthorized
    (env : Env) (s s' : State) (e : exn) :
  (forall f e0, token_file s = Some f -> read_token_file env f <> inl e0) ->
  load_creds env s = (inl e, s') ->
  (exists detail, e = HTTPException 401 detail) /\ token_file s' = None.
Proof.
  intros Hreadable Hrun.
  destruct (load_creds_cases env s)
    as [[Hfile H] | [(f & e0 & Hfile & Hread & H) | [(f & c & _ & _ & _ & H) |
        [(f & c & c' & _ & _ & _ & H) | (f & c & e0 & _ & _ & _ & H)]]]];
    try (rewrite H in Hrun; discriminate).
  - rewrite H in Hrun. injection Hrun as <- <-. split; [eexists; reflexivity | exact Hfile].
  - exfalso. apply (Hreadable f e0 Hfile Hread).
  - rewrite H in Hrun. injection Hrun as <- <-. split; [eexists; reflexivity | reflexivity].
Qed.

Lemma load_creds_failure_is_unauthorized_witness :
  (exists detail,
     HTTPException 401
       "Failed to refresh credentials: invalid_grant: Token has been expired or revoked." =
     HTTPException 401 detail) /\
  token_file (mkState None [RefreshGrant sample_creds]) = None.
Proof.
  apply (load_creds_failure_is_unauthorized refusing_env (stored sample_creds)).
  - intros f e0 Hfile. injection Hfile as <-. discriminate.
  - reflexivity.
Defined.

(** X4: an unreadable token file is not removed: [load_creds] raises the
    reader's exception and leaves the state as it was, so the same failure
    repeats in every later world until the file is replaced. *)
Theorem load_creds_unreadable_file_stays
    (env : Env) (s : State) (e : exn) :
  token_file s = Some (Unreadable e) ->
  load_creds env s = (inl e, s) /\
  forall env', load_creds env' (snd (load_creds env s)) = (inl e, s).
Proof.
  intros Hfile.
  pose proof (load_creds_read_failed env s (Unreadable e) e Hfile eq_refl) as Hrun.
  split; [exact Hrun | ].
  intros env'. rewrite Hrun.
  apply (load_creds_read_failed env' s (Unreadable e) e Hfile eq_refl).
Qed.

Lemma load_creds_unreadable_file_stays_witness :
  load_creds granting_env corrupt =
    (inl (Exception "JSONDecodeError" "Expecting value: line 1 column 1 (char 0)"), corrupt) /\
  forall env', load_creds env' (snd (load_creds granting_env corrupt)) =
    (inl (Exception "JSONDecodeError" "Expecting value: line 1 column 1 (char 0)"), corrupt).
Proof.
  apply (load_creds_unreadable_file_stays granting_env corrupt). reflexivity.
Defined.

(** X5: unless a refresh is due, [load_creds] neither calls out nor writes
    or removes the token file. *)
Theorem load_creds_read_only_unless_refresh_due (env : Env) (s : State) :
  (forall info creds,
     token_file s = Some (Authorized info) ->
     from_authorized_user_info env info = inr creds ->
     expired env creds && has_refresh_token creds = false) ->
  snd (load_creds env s) = s.
Proof.
  intros Hnotdue.
  destruct (load_creds_cases env s)
    as [[_ H] | [(f & e & _ & _ & H) | [(f & c & _ & _ & _ & H) |
        [(f & c & c' & Hfile & Hread & Hdue & _) | (f & c & e & Hfile & Hread & Hdue & _)]]]];
    try (rewrite H; reflexivity);
    (destruct f as [info | e0]; [ | discriminate Hread]);
    rewrite (Hnotdue info c Hfile Hread) in Hdue; discriminate.
Qed.

Lemma load_creds_read_only_unless_refresh_due_witness :
  snd (load_creds refusing_env (holding null_token_info)) = holding null_token_info.
Proof.
  apply (load_creds_read_only_unless_refresh_due refusing_env (holding null_token_info)).
  intros info creds Hfile Hread. injection Hfile as <-.
  injection Hread as <-. reflexivity.
Defined.

(** X6: a credential with a refresh token that [load_creds] returned is
    returned again, with its expiry in whole seconds and with no further
    effect, by a later call in any world whose clock is more than the
    threshold short of that expiry. *)
Theorem load_creds_stable
    (env env' : Env) (s s' : State) (creds : Credentials) (e : Z) :
  load_creds env s = (inr creds, s') ->
  has_refresh_token creds = true ->
  expiry creds = Some e ->
  utcnow env' + Z.of_N (REFRESH_THRESHOLD env') < whole_seconds e ->
  load_creds env' s' = (inr (with_expiry creds (whole_seconds e)), s').
Proof.
  intros Hrun Hhas He Hahead.
  assert (Hkeep : expired env' (with_expiry creds (whole_seconds e)) &&
                  has_refresh_token (with_expiry creds (whole_seconds e)) = false).
  { apply andb_false_iff. left. unfold expired. cbn. apply Z.leb_gt. lia. }
  destruct (load_creds_cases env s)
    as [[_ H] | [(f & e0 & _ & _ & H) | [(f & c & Hfile & Hread & Hcond & H) |
        [(f & c & c' & _ & _ & _ & H) | (f & c & e0 & _ & _ & _ & H)]]]];
    rewrite H in Hrun; try discriminate; injection Hrun as <- <-.
  - destruct f as [info | e0]; [ | discriminate Hread]. cbn in Hread.
    rewrite Hhas, andb_true_r in Hcond.
    destruct (reader_fields env info c Hread) as [_ Hexp].
    destruct (info_expiry info) as [e0 | ] eqn:Hinfo.
    + assert (Hsame : whole_seconds e = e).
      { rewrite He in Hexp. injection Hexp as ->. apply whole_seconds_idempotent. }
      rewrite Hsame in *. rewrite (with_expiry_same c e He) in *.
      apply (load_creds_kept env' s (Authorized info) c Hfile); [ | exact Hkeep].
      cbn. rewrite (reader_ignores_clock env env' info e0 Hinfo). exact Hread.
    + exfalso. unfold expired in Hcond. rewrite Hexp in Hcond.
      apply Z.leb_gt in Hcond. lia.
  - unfold has_refresh_token in Hhas.
    destruct (refresh_token c') as [rt | ] eqn:Hrt; [ | discriminate Hhas].
    apply (load_creds_kept env' _ (Authorized (to_json c'))); [reflexivity | | exact Hkeep].
    cbn. apply (read_back env' c' rt e Hrt He).
Qed.

Lemma load_creds_stable_witness :
  load_creds refusing_env
    (mkState (Some (Authorized (to_json fresh_creds))) [RefreshGrant sample_creds]) =
    (inr (with_expiry fresh_creds (whole_seconds 9000000000)),
     mkState (Some (Authorized (to_json fresh_creds))) [RefreshGrant sample_creds]).
Proof.
  apply (load_creds_stable granting_env refusing_env (stored sample_creds) _
           fresh_creds 9000000000); reflexivity.
Defined.

(** X24: a token file without an expiry is read as a credential that has
    just expired: when it holds a refresh token that is not empty, every
    call of [load_creds] makes a refresh call for it. *)
Theorem load_creds_without_expiry_refreshes
    (env : Env) (s : State) (info : AuthorizedUserInfo) (rt : string) :
  token_file s = Some (Authorized info) ->
  info_expiry info = None ->
  info_refresh_token info = Text rt ->
  rt <> "" ->
  exists creds,
    from_authorized_user_info env info = inr creds /\
    expiry creds = Some (utcnow env - Z.of_N (REFRESH_THRESHOLD env)) /\
    calls (snd (load_creds env s)) = (calls s ++ [RefreshGrant creds])%list.
Proof.
  intros Hfile Hexpiry Hrt Hne.
  destruct (reader_accepts env info) as (creds & Hread);
    [rewrite Hrt; discriminate | ].
  destruct (reader_fields env info creds Hread) as [Hcrt Hcexp].
  rewrite Hrt in Hcrt. rewrite Hexpiry in Hcexp.
  exists creds. split; [exact Hread | split; [exact Hcexp | ]].
  assert (Hcond : expired env creds && has_refresh_token creds = true).
  { rewrite (has_refresh_token_some creds rt Hcrt Hne), andb_true_r.
    unfold expired. rewrite Hcexp. apply Z.leb_le. lia. }
  destruct (refresh_grant env creds) as [e | creds'] eqn:Hgrant.
  - rewrite (load_creds_refresh_failed env s (Authorized info) creds e Hfile Hread
               Hcond Hgrant). reflexivity.
  - rewrite (load_creds_refreshed env s (Authorized info) creds creds' Hfile Hread
               Hcond Hgrant). reflexivity.
Qed.

Lemma load_creds_without_expiry_refreshes_witness :
  exists creds,
    from_authorized_user_info granting_env (to_json eternal_creds) = inr creds /\
    expiry creds = Some (5000000000 - 225000000) /\
    calls (snd (load_creds granting_env (stored eternal_creds))) =
      (calls (stored eternal_creds) ++ [RefreshGrant creds])%list.
Proof.
  apply (load_creds_without_expiry_refreshes granting_env (stored eternal_creds)
           (to_json eternal_creds) "1//refresh"); try reflexivity.
  discriminate.
Defined.

(** * Further properties of the adapter and the dispatcher *)

(** ** What an operation does to the state *)

Lemma bind_load_creds {A : Type} (env : Env) (k : Credentials -> M A) (s : State) :
  bind (load_creds env) k s =
    match load_creds env s with
    | (inr creds, s1) => k creds s1
    | (inl e, s1) => (inl e, s1)
    end.
Proof. reflexivity. Qed.

Section Effects.

Variable env : Env.
Variable s : State.

Lemma list_docs_effect :
  only_loads env s (snd (list_docs env s)) \/
  exists creds,
    loads_then_calls env s
      (DriveFilesList creds
         "mimeType='application/vnd.google-apps.document' and trashed=false"
         50 "files(id,name)")
      (snd (list_docs env s)).
Proof.
  unfold only_loads, loads_then_calls, list_docs. rewrite bind_load_creds.
  destruct (load_creds env s) as [[e | creds] s1]; [left; reflexivity | ].
  right. exists creds, creds. split; [reflexivity | ].
  unfold bind, remote, lift. cbn [credentials snd fst].
  destruct (drive_files_list env _ _ _ _) as [e | files]; [reflexivity | ].
  destruct (PyOps.get files "files" (JList [])); reflexivity.
Qed.

Lemma get_doc_effect (d : json) :
  only_loads env s (snd (get_doc env d s)) \/
  exists creds, loads_then_calls env s (DocumentsGet creds d) (snd (get_doc env d s)).
Proof.
  unfold only_loads, loads_then_calls, get_doc. rewrite bind_load_creds.
  destruct (load_creds env s) as [[e | creds] s1]; [left; reflexivity | ].
  right. exists creds, creds. split; [reflexivity | ].
  unfold bind, remote, lift, ret. cbn [credentials snd fst].
  destruct (documents_get env _ _) as [e | doc]; [reflexivity | ].
  destruct (PyOps.get doc "title" JNull); [reflexivity | ].
  destruct (PyOps.get doc "body" JNull); reflexivity.
Qed.

Lemma insert_text_effect (d text index : json) :
  only_loads env s (snd (insert_text env d text index s)) \/
  exists creds body,
    loads_then_calls env s (DocumentsBatchUpdate creds d body)
      (snd (insert_text env d text index s)).
Proof.
  unfold only_loads, loads_then_calls, insert_text. rewrite bind_load_creds.
  destruct (load_creds env s) as [[e | creds] s1]; [left; reflexivity | ].
  right. exists creds. eexists. exists creds. split; [reflexivity | ].
  cbn [snd]. rewrite batch_update_state. reflexivity.
Qed.

Lemma format_range_effect (d a b fmt : json) :
  only_loads env s (snd (format_range env d a b fmt s)) \/
  exists creds body,
    loads_then_calls env s (DocumentsBatchUpdate creds d body)
      (snd (format_range env d a b fmt s)).
Proof.
  unfold only_loads, loads_then_calls, format_range. rewrite bind_load_creds.
  destruct (load_creds env s) as [[e | creds] s1]; [left; reflexivity | ].
  cbn [snd].
  destruct (Py.eq_str fmt "bold");
    [ | destruct (Py.eq_str fmt "italic");
        [ | destruct (Py.eq_str fmt "heading1"); [ | left; reflexivity]]];
    right; exists creds; eexists; exists creds; (split; [reflexivity | ]);
    rewrite batch_update_state; reflexivity.
Qed.

(** Every path through [dispatch]: nothing happened, only the credential
    was loaded, or the credential was loaded and one service call made; a
    batch update is made for [insert_text] and [format_range] only. *)
Lemma dispatch_effect (method params : json) :
  let s' := snd (dispatch env method params s) in
  s' = s \/ only_loads env s s' \/
  exists call,
    loads_then_calls env s call s' /\
    is_service_call call = true /\
    (is_batch_update call = true ->
       method = JStr "insert_text" \/ method = JStr "format_range").
Proof.
  cbn zeta.
  remember (dispatch env method params s) as out eqn:Hout.
  unfold dispatch in Hout.
  destruct (Py.eq_str method "list_docs") eqn:Hlist.
  { subst out.
    destruct list_docs_effect as [H | (creds & H)]; [right; left; exact H | ].
    right. right. eexists. split; [exact H | ]. split; [reflexivity | discriminate]. }
  destruct (Py.eq_str method "get_doc") eqn:Hget.
  { unfold bind at 1, lift at 1 in Hout.
    destruct (PyOps.getitem params "documentId") as [e | d];
      [subst out; left; reflexivity | ].
    subst out.
    destruct (get_doc_effect d) as [H | (creds & H)]; [right; left; exact H | ].
    right. right. eexists. split; [exact H | ]. split; [reflexivity | discriminate]. }
  destruct (Py.eq_str method "insert_text") eqn:Hins.
  { apply eq_str_true in Hins.
    unfold bind at 1, lift at 1 in Hout.
    destruct (PyOps.getitem params "documentId") as [e | d];
      [subst out; left; reflexivity | ].
    unfold bind at 1, lift at 1 in Hout.
    destruct (PyOps.getitem params "text") as [e | text];
      [subst out; left; reflexivity | ].
    unfold bind at 1, lift at 1 in Hout.
    destruct (PyOps.get params "index" (JInt 1)) as [e | index];
      [subst out; left; reflexivity | ].
    subst out.
    destruct (insert_text_effect d text index) as [H | (creds & body & H)];
      [right; left; exact H | ].
    right. right. eexists. split; [exact H | ]. split; [reflexivity | auto]. }
  destruct (Py.eq_str method "format_range") eqn:Hfmt.
  { apply eq_str_true in Hfmt.
    unfold bind at 1, lift at 1 in Hout.
    destruct (PyOps.getitem params "documentId") as [e | d];
      [subst out; left; reflexivity | ].
    unfold bind at 1, lift at 1 in Hout.
    destruct (PyOps.getitem params "start_index") as [e | a];
      [subst out; left; reflexivity | ].
    unfold bind at 1, lift at 1 in Hout.
    destruct (PyOps.getitem params "end_index") as [e | b];
      [subst out; left; reflexivity | ].
    unfold bind at 1, lift at 1 in Hout.
    destruct (PyOps.getitem params "format") as [e | fmt];
      [subst out; left; reflexivity | ].
    subst out.
    destruct (format_range_effect d a b fmt) as [H | (creds & body & H)];
      [right; left; exact H | ].
    right. right. eexists. split; [exact H | ]. split; [reflexivity | auto]. }
  subst out. left. reflexivity.
Qed.

End Effects.

Lemma mcp_endpoint_state (env : Env) (q : list (string * string))
    (fields : list (string * json)) (s : State) :
  snd (mcp_endpoint env (mkRequest q (inr (JDict fields))) s) =
    snd (dispatch env (body_method fields) (body_params fields) s).
Proof.
  rewrite mcp_endpoint_object.
  destruct (dispatch env (body_method fields) (body_params fields) s) as [[e | r] s'];
    [reflexivity | ].
  destruct (JSONResponse (result_envelope (body_id fields) r) 200); reflexivity.
Qed.

(** ** Requests and the token file *)

(** X7: a stored credential for which no refresh is due survives every
    request with an object body, whatever the method, the parameters and
    the answers of the remote service: the token file is unchanged and no
    refresh call is made. *)
Theorem mcp_endpoint_keeps_valid_credential
    (env : Env) (q : list (string * string)) (fields : list (string * json))
    (s : State) (info : AuthorizedUserInfo) (creds : Credentials) :
  token_file s = Some (Authorized info) ->
  from_authorized_user_info env info = inr creds ->
  expired env creds && has_refresh_token creds = false ->
  let s' := snd (mcp_endpoint env (mkRequest q (inr (JDict fields))) s) in
  token_file s' = Some (Authorized info) /\
  filter is_refresh (calls s') = filter is_refresh (calls s).
Proof.
  intros Hfile Hread Hnotdue. cbn zeta. rewrite mcp_endpoint_state.
  pose proof (load_creds_kept env s (Authorized info) creds Hfile Hread Hnotdue) as Hload.
  destruct (dispatch_effect env s (body_method fields) (body_params fields))
    as [-> | [H | (call & (c & _ & H) & Hservice & _)]].
  - split; [exact Hfile | reflexivity].
  - unfold only_loads in H. rewrite H, Hload. split; [exact Hfile | reflexivity].
  - rewrite H, Hload. cbn [snd token_file calls]. split; [exact Hfile | ].
    rewrite filter_app. cbn.
    destruct call; try discriminate; cbn; apply app_nil_r.
Qed.

Lemma mcp_endpoint_keeps_valid_credential_witness :
  let s' := snd (mcp_endpoint offline_env
                   (rpc_request (JStr "list_docs") JNull (JStr "1"))
                   (stored fresh_creds)) in
  token_file s' = Some (Authorized (to_json fresh_creds)) /\
  filter is_refresh (calls s') = filter is_refresh (calls (stored fresh_creds)).
Proof.
  apply (mcp_endpoint_keeps_valid_credential offline_env []
           [("method", JStr "list_docs"); ("params", JNull); ("id", JStr "1")]
           (stored fresh_creds) (to_json fresh_creds) fresh_creds); reflexivity.
Defined.

(** X8: no retries.  A request with an object body adds to the call log at
    most one refresh call followed by at most one service call, and nothing
    else. *)
Theorem mcp_endpoint_call_discipline
    (env : Env) (q : list (string * string)) (fields : list (string * json))
    (s : State) :
  exists refreshes services,
    calls (snd (mcp_endpoint env (mkRequest q (inr (JDict fields))) s)) =
      (calls s ++ refreshes ++ services)%list /\
    (List.length refreshes <= 1)%nat /\
    (List.length services <= 1)%nat /\
    forallb is_refresh refreshes = true /\
    forallb is_service_call services = true.
Proof.
  rewrite mcp_endpoint_state.
  assert (Hload : exists refreshes,
            calls (snd (load_creds env s)) = (calls s ++ refreshes)%list /\
            (List.length refreshes <= 1)%nat /\ forallb is_refresh refreshes = true).
  { destruct (load_creds_calls env s) as [H | (c & H)].
    - exists []. rewrite H, app_nil_r. repeat split. cbn. lia.
    - exists [RefreshGrant c]. rewrite H. repeat split. cbn. lia. }
  destruct Hload as (refreshes & Hcalls & Hlen & Hall).
  destruct (dispatch_effect env s (body_method fields) (body_params fields))
    as [-> | [H | (call & (c & _ & H) & Hservice & _)]].
  - exists [], []. rewrite !app_nil_r. repeat split; cbn; lia.
  - unfold only_loads in H. rewrite H. exists refreshes, [].
    rewrite app_nil_r. repeat split; auto.
  - rewrite H. cbn [calls]. exists refreshes, [call].
    rewrite Hcalls, <- app_assoc. repeat split; auto.
    cbn. rewrite Hservice. reflexivity.
Qed.

(** X9: only [insert_text] and [format_range] can change a document: a
    request for any other method issues no batch update. *)
Theorem mcp_endpoint_read_only_methods
    (env : Env) (q : list (string * string)) (fields : list (string * json))
    (s : State) :
  body_method fields <> JStr "insert_text" ->
  body_method fields <> JStr "format_range" ->
  batch_updates (snd (mcp_endpoint env (mkRequest q (inr (JDict fields))) s)) =
    batch_updates s.
Proof.
  intros Hins Hfmt. rewrite mcp_endpoint_state.
  destruct (dispatch_effect env s (body_method fields) (body_params fields))
    as [-> | [H | (call & (c & _ & H) & _ & Hbatch)]].
  - reflexivity.
  - unfold only_loads in H. rewrite H. apply load_creds_batch_updates.
  - rewrite H. unfold batch_updates at 1. cbn [calls]. rewrite filter_app. cbn.
    destruct (is_batch_update call) eqn:Hcall.
    + destruct (Hbatch eq_refl); contradiction.
    + rewrite app_nil_r. apply load_creds_batch_updates.
Qed.

Lemma mcp_endpoint_read_only_methods_witness :
  batch_updates
    (snd (mcp_endpoint granting_env
            (rpc_request (JStr "get_doc") (JDict [("documentId", JStr "X")]) (JStr "1"))
            (stored sample_creds))) =
    batch_updates (stored sample_creds).
Proof.
  apply (mcp_endpoint_read_only_methods granting_env []
           [("method", JStr "get_doc"); ("params", JDict [("documentId", JStr "X")]);
            ("id", JStr "1")]
           (stored sample_creds)); discriminate.
Defined.




(** * Further properties of the OAuth callback *)

(** X11: a callback with a non-empty code that the token endpoint accepts
    makes one exchange call, answers 200 and writes the credential
    obtained, replacing whatever the token file held.  When a refresh token
    was issued, [load_creds] then returns the credential, with its expiry in
    whole seconds, in every world whose clock is more than the threshold
    short of that expiry.  When none was issued the file is written without
    the [refresh_token] key, and every later [load_creds] raises the
    reader's [ValueError]. *)
Theorem oauth2callback_stores_credential
    (env : Env) (request : Request) (s : State) (code flow : string)
    (creds : Credentials) :
  query_get "code" (query_params request) = Some code ->
  code <> "" ->
  client_secrets_file env = inr flow ->
  fetch_token env flow code = inr creds ->
  let s' := mkState (Some (Authorized (to_json creds))) (calls s ++ [FetchToken code]) in
  oauth2callback env request s =
    (inr (HTMLResponse "Authorized. You can close this tab. Server ready."), s') /\
  (forall env' rt e,
     refresh_token creds = Some rt ->
     expiry creds = Some e ->
     utcnow env' + Z.of_N (REFRESH_THRESHOLD env') < whole_seconds e ->
     load_creds env' s' = (inr (with_expiry creds (whole_seconds e)), s')) /\
  (refresh_token creds = None ->
   forall env',
     load_creds env' s' =
       (inl (Exception "ValueError"
               "Authorized user info was not in the expected format, missing fields refresh_token."),
        s')).
Proof.
  intros Hcode Hne Hflow Htoken. cbn zeta. split; [ | split].
  - unfold oauth2callback. rewrite Hcode.
    destruct (String.eqb_spec code ""); [contradiction | ].
    unfold exchange_code. run_monad. rewrite Hflow. cbn [fst snd].
    rewrite Htoken. reflexivity.
  - intros env' rt e Hrt He Hahead.
    apply (load_creds_kept env' _ (Authorized (to_json creds))); [reflexivity | | ].
    + cbn. apply (read_back env' creds rt e Hrt He).
    + apply andb_false_iff. left. unfold expired. cbn. apply Z.leb_gt. lia.
  - intros Hnone env'.
    apply (load_creds_read_failed env' _ (Authorized (to_json creds))); [reflexivity | ].
    cbn. apply read_back_without_refresh_token. exact Hnone.
Qed.

Lemma oauth2callback_stores_credential_witness :
  let s' := mkState (Some (Authorized (to_json fresh_creds))) [FetchToken "4/0AX4"] in
  oauth2callback granting_env (mkRequest [("code", "4/0AX4")] (inr JNull)) corrupt =
    (inr (HTMLResponse "Authorized. You can close this tab. Server ready."), s') /\
  load_creds granting_env s' =
    (inr (with_expiry fresh_creds (whole_seconds 9000000000)), s').
Proof.
  assert (Hne : "4/0AX4" <> "") by discriminate.
  destruct (oauth2callback_stores_credential granting_env
              (mkRequest [("code", "4/0AX4")] (inr JNull)) corrupt
              "4/0AX4" "client_secret.json" fresh_creds eq_refl Hne eq_refl eq_refl)
    as (Hrun & Hload & _).
  split; [exact Hrun | ].
  apply (Hload granting_env "1//refresh" 9000000000); reflexivity.
Defined.

(** X12: a callback that raises, for a missing code, an unreadable client
    secrets file or a refused exchange, leaves the token file exactly as it
    was; a stored credential is replaced only by a completed exchange. *)
Theorem oauth2callback_failure_keeps_token_file
    (env : Env) (request : Request) (s s' : State) (e : exn) :
  oauth2callback env request s = (inl e, s') ->
  token_file s' = token_file s.
Proof.
  unfold oauth2callback, exchange_code.
  destruct (query_get "code" (query_params request)) as [code | ].
  - destruct (String.eqb code "").
    + unfold raise. intros H. injection H as _ <-. reflexivity.
    + run_monad.
      destruct (client_secrets_file env) as [e1 | flow]; cbn [fst snd].
      * intros H. injection H as _ <-. reflexivity.
      * destruct (fetch_token env flow code) as [e2 | creds].
        -- intros H. injection H as _ <-. reflexivity.
        -- discriminate.
  - unfold raise. intros H. injection H as _ <-. reflexivity.
Qed.

Lemma oauth2callback_failure_keeps_token_file_witness :
  token_file (mkState (Some (Authorized (to_json sample_creds))) [FetchToken "stale"]) =
    token_file (stored sample_creds).
Proof.
  apply (oauth2callback_failure_keeps_token_file offline_env
           (mkRequest [("code", "stale")] (inr JNull)) (stored sample_creds) _
           (Exception "InvalidGrantError" "(invalid_grant) Bad Request")).
  reflexivity.
Defined.

(** X13: a [code] parameter that is present but empty is refused like a
    missing one: status 400, no exchange call, the state unchanged. *)
Theorem oauth2callback_empty_code (env : Env) (request : Request) (s : State) :
  query_get "code" (query_params request) = Some "" ->
  oauth2callback env request s = (inl (HTTPException 400 "No code in callback"), s) /\
  status (http_response (fst (oauth2callback env request s))) = 400.
Proof.
  intros Hcode.
  assert (Hrun : oauth2callback env request s =
                   (inl (HTTPException 400 "No code in callback"), s)).
  { unfold oauth2callback. rewrite Hcode. reflexivity. }
  rewrite Hrun. split; reflexivity.
Qed.

Lemma oauth2callback_empty_code_witness :
  oauth2callback granting_env (mkRequest [("code", "")] (inr JNull)) unauthorized =
    (inl (HTTPException 400 "No code in callback"), unauthorized) /\
  status (http_response
            (fst (oauth2callback granting_env (mkRequest [("code", "")] (inr JNull))
                    unauthorized))) = 400.
Proof.
  apply (oauth2callback_empty_code granting_env (mkRequest [("code", "")] (inr JNull))
           unauthorized).
  reflexivity.
Defined.


(** * Further properties of the operations *)


















(** * Further properties of the dispatcher's parameters *)








(** * Properties of [get_refresh_token.py] *)

(** X21: the script ends with exit status 0 exactly when the token file
    exists and holds a JSON object; a missing file, text that is not JSON
    and JSON that is not an object all end with status 1. *)
Theorem get_refresh_token_exit_status (file : option (exn + json)) :
  GetRefreshToken.exit_status (GetRefreshToken.main file) = 0 <->
  exists fields, file = Some (inr (JDict fields)).
Proof.
  unfold GetRefreshToken.main, GetRefreshToken.exit_status. split.
  - destruct file as [[e | data] | ]; cbn; try discriminate.
    destruct data; cbn; try discriminate.
    intros _. eexists. reflexivity.
  - intros (fields & ->). cbn.
    destruct (Py.lookup "refresh_token" fields) as [v | ]; cbn;
      [destruct (Py.truthy v) | ]; reflexivity.
Qed.

(** X22: the script prints the line "REFRESH TOKEN:" exactly when the file
    holds an object whose [refresh_token] is truthy, and then the next and
    last line is that value; a null, empty or missing token is never
    printed. *)
Theorem get_refresh_token_prints_truthy_token_only (file : option (exn + json)) :
  In "REFRESH TOKEN:" (GetRefreshToken.stdout (GetRefreshToken.main file)) <->
  exists fields v,
    file = Some (inr (JDict fields)) /\
    Py.lookup "refresh_token" fields = Some v /\
    Py.truthy v = true /\
    GetRefreshToken.stdout (GetRefreshToken.main file) = ["REFRESH TOKEN:"; Py.str v].
Proof.
  unfold GetRefreshToken.main. split.
  - destruct file as [[e | data] | ]; cbn.
    + intros [].
    + destruct data; cbn; try (intros []).
      destruct (Py.lookup "refresh_token" fields) as [v | ] eqn:Hv; cbn.
      * destruct (Py.truthy v) eqn:Ht; cbn.
        -- intros _. exists fields, v. repeat split; auto.
        -- intros [H | []]. discriminate.
      * intros [H | []]. discriminate.
    + intros [H | []]. discriminate.
  - intros (fields & v & -> & Hv & Ht & _). cbn. rewrite Hv, Ht. cbn. left. reflexivity.
Qed.

Lemma get_refresh_token_exit_status_witness :
  GetRefreshToken.exit_status
    (GetRefreshToken.main (Some (inr (JDict [("token", JStr "ya29.a")])))) = 0.
Proof.
  apply (proj2 (get_refresh_token_exit_status
                  (Some (inr (JDict [("token", JStr "ya29.a")]))))).
  eexists. reflexivity.
Defined.

Lemma get_refresh_token_prints_truthy_token_only_witness :
  In "REFRESH TOKEN:"
    (GetRefreshToken.stdout
       (GetRefreshToken.main (Some (inr (JDict [("refresh_token", JStr "1//abc")]))))).
Proof.
  apply (proj2 (get_refresh_token_prints_truthy_token_only
                  (Some (inr (JDict [("refresh_token", JStr "1//abc")]))))).
  exists [("refresh_token", JStr "1//abc")], (JStr "1//abc").
  repeat split.
Defined.

(** * The dispatcher on a body that is not an object *)

(** X23: a body that decodes to JSON but not to an object makes
    [body.get] raise [AttributeError] before the [try] block: the handler
    returns no envelope, FastAPI answers 500, and the state is unchanged. *)
Theorem mcp_endpoint_body_not_an_object
    (env : Env) (q : list (string * string)) (v : json) (s : State) :
  (forall kvs, v <> JDict kvs) ->
  exists text,
    mcp_endpoint env (mkRequest q (inr v)) s =
      (inl (Exception "AttributeError" text), s) /\
    status (http_response (fst (mcp_endpoint env (mkRequest q (inr v)) s))) = 500.
Proof.
  intros Hnotdict.
  assert (Hrun : exists text,
            mcp_endpoint env (mkRequest q (inr v)) s =
              (inl (Exception "AttributeError" text), s)).
  { destruct v; try (eexists; reflexivity).
    exfalso. apply (Hnotdict fields). reflexivity. }
  destruct Hrun as (text & Hrun). exists text. rewrite Hrun. split; reflexivity.
Qed.

Lemma mcp_endpoint_body_not_an_object_witness :
  exists text,
    mcp_endpoint granting_env (mkRequest [] (inr (JStr "list_docs"))) (stored fresh_creds) =
      (inl (Exception "AttributeError" text), stored fresh_creds) /\
    status (http_response
              (fst (mcp_endpoint granting_env (mkRequest [] (inr (JStr "list_docs")))
                      (stored fresh_creds)))) = 500.
Proof.
  apply (mcp_endpoint_body_not_an_object granting_env [] (JStr "list_docs")
           (stored fresh_creds)).
  intros kvs. discriminate.
Defined.
